(** * A shallow embedding of [nifi/client.go]

    The NiFi REST client: the generic [JsonCall] primitive and the
    process-group, processor and connection operations built on it.

    Modelling choices.
    - JSON documents are the inductive [json]; a request body written by
      [json.NewEncoder(buffer).Encode] is the list of documents written to
      the buffer (each followed by a newline on the wire).
    - A response body is either a well-formed JSON document or bytes whose
      first JSON value does not parse ([BodyMalformed]).
    - [net/http] is an oracle: [NewRequestOk] says whether
      [http.NewRequest] accepts a method and URL, [Do] answers a request
      with a response or a transport error.
    - Go's [encoding/json] is modelled on the types of this file: struct
      tags, [omitempty], nil slices and maps encoding as [null], decoding
      into an existing value (fields present in the document overwrite,
      the others are kept, [null] leaves scalars alone and nils slices and
      maps, a type mismatch records an error and leaves the field alone).
    - A [float64] is finite (layout coordinates, opaque to the client,
      carried as integers) or one of the values [encoding/json] refuses.
    - Pointer arguments ([*Processor], ...) are passed in and their new
      pointee is returned; every operation also returns the list of HTTP
      requests it submitted. *)

From Stdlib Require Import ZArith Bool Ascii.
From stdpp Require Import base gmap strings list sorting.

Set Warnings "-register-all".
Open Scope Z_scope.

(* ------------------------------------------------------------------ *)
(** ** JSON documents and Go values *)

Inductive json :=
| JNull
| JBool (b : bool)
| JNum (n : Z)
| JStr (s : string)
| JArr (l : list json)
| JObj (members : list (string * json)).

(** A Go [float64]: a finite value, or NaN / an infinity, which
    [encoding/json] refuses with an [UnsupportedValueError]. *)
Inductive float64 :=
| F64 (v : Z)
| F64NaN
| F64Inf (negative : bool).

(** A Go [interface{}] as found in [Properties]: the nil interface, a
    value that encodes as the given JSON document (what the decoder stores:
    string, float64, bool, slice or map), or a value [encoding/json]
    cannot encode (a func, a channel, a NaN). *)
Inductive iface :=
| INil
| IJson (j : json)
| IUnsupported.

(** A Go slice: [None] is the nil slice (encodes as [null]). *)
Abbreviation slice A := (option (list A)).
(** A Go map: [None] is the nil map (encodes as [null]). *)
Abbreviation gomap V := (option (gmap string V)).

Definition slice_elems {A} (s : slice A) : list A :=
  match s with Some l => l | None => [] end.

(* ------------------------------------------------------------------ *)
(** ** The structs of client.go *)

Record Config := { Host : string; ApiPath : string }.

Record Revision := { Version : Z }.

Record Position := { X : float64; Y : float64 }.

Record ProcessGroupComponent := {
  pgId : string;            (* json:"id,omitempty" *)
  pgParentGroupId : string; (* json:"parentGroupId" *)
  pgName : string;          (* json:"name" *)
  pgPosition : Position     (* json:"position" *)
}.

Record ProcessGroup := {
  pgRevision : Revision;
  pgComponent : ProcessGroupComponent
}.

Record ProcessorRelationship := {
  relName : string;         (* json:"name" *)
  AutoTerminate : bool      (* json:"autoTerminate" *)
}.

Record ProcessorConfig := {
  SchedulingStrategy : string;
  SchedulingPeriod : string;
  ConcurrentlySchedulableTaskCount : Z;
  Properties : gomap iface;
  AutoTerminatedRelationships : slice string
}.

Record ProcessorComponent := {
  prId : string;            (* json:"id,omitempty" *)
  prParentGroupId : string;
  prName : string;
  prType : string;
  prPosition : Position;
  prState : string;         (* json:"state,omitempty" *)
  prConfig : ProcessorConfig;
  prRelationships : slice ProcessorRelationship
}.

Record Processor := {
  prRevision : Revision;
  prComponent : ProcessorComponent
}.

Record ConnectionHand := { chType : string; chId : string }.

Record ConnectionComponent := {
  cnId : string;            (* json:"id,omitempty" *)
  cnParentGroupId : string;
  Source : ConnectionHand;
  Destination : ConnectionHand;
  SelectedRelationships : slice string;
  Bends : slice Position
}.

Record Connection := {
  cnRevision : Revision;
  cnComponent : ConnectionComponent
}.

(** Zero values ([T{}] in Go). *)
Definition zero_Revision : Revision := {| Version := 0 |}.
Definition zero_Position : Position := {| X := F64 0; Y := F64 0 |}.
Definition zero_ProcessGroup : ProcessGroup :=
  {| pgRevision := zero_Revision;
     pgComponent := {| pgId := ""; pgParentGroupId := ""; pgName := "";
                       pgPosition := zero_Position |} |}.
Definition zero_ProcessorConfig : ProcessorConfig :=
  {| SchedulingStrategy := ""; SchedulingPeriod := "";
     ConcurrentlySchedulableTaskCount := 0; Properties := None;
     AutoTerminatedRelationships := None |}.
Definition zero_ProcessorComponent : ProcessorComponent :=
  {| prId := ""; prParentGroupId := ""; prName := ""; prType := "";
     prPosition := zero_Position; prState := ""; prConfig := zero_ProcessorConfig;
     prRelationships := None |}.
Definition zero_Processor : Processor :=
  {| prRevision := zero_Revision; prComponent := zero_ProcessorComponent |}.
Definition zero_ConnectionHand : ConnectionHand := {| chType := ""; chId := "" |}.
Definition zero_Connection : Connection :=
  {| cnRevision := zero_Revision;
     cnComponent := {| cnId := ""; cnParentGroupId := ""; Source := zero_ConnectionHand;
                       Destination := zero_ConnectionHand; SelectedRelationships := None;
                       Bends := None |} |}.

(** Field assignments used by the code. *)
Definition set_prState (p : Processor) (s : string) : Processor :=
  let c := prComponent p in
  {| prRevision := prRevision p;
     prComponent := {| prId := prId c; prParentGroupId := prParentGroupId c;
                       prName := prName c; prType := prType c;
                       prPosition := prPosition c; prState := s;
                       prConfig := prConfig c; prRelationships := prRelationships c |} |}.

Definition set_prConfig (p : Processor) (k : ProcessorConfig) : Processor :=
  let c := prComponent p in
  {| prRevision := prRevision p;
     prComponent := {| prId := prId c; prParentGroupId := prParentGroupId c;
                       prName := prName c; prType := prType c;
                       prPosition := prPosition c; prState := prState c;
                       prConfig := k; prRelationships := prRelationships c |} |}.

Definition set_Properties (k : ProcessorConfig) (m : gomap iface) : ProcessorConfig :=
  {| SchedulingStrategy := SchedulingStrategy k; SchedulingPeriod := SchedulingPeriod k;
     ConcurrentlySchedulableTaskCount := ConcurrentlySchedulableTaskCount k;
     Properties := m; AutoTerminatedRelationships := AutoTerminatedRelationships k |}.

Definition set_AutoTerminatedRelationships (k : ProcessorConfig) (l : slice string)
  : ProcessorConfig :=
  {| SchedulingStrategy := SchedulingStrategy k; SchedulingPeriod := SchedulingPeriod k;
     ConcurrentlySchedulableTaskCount := ConcurrentlySchedulableTaskCount k;
     Properties := Properties k; AutoTerminatedRelationships := l |}.

(* ------------------------------------------------------------------ *)
(** ** [encoding/json]: encoding (json.Marshal on these types)

    [encode x = None] is an [UnsupportedValueError]. *)

Class Encode (T : Type) := encode : T -> option json.
Global Arguments encode {_ _} _.

#[global] Instance Encode_string : Encode string := fun s => Some (JStr s).
#[global] Instance Encode_int : Encode Z := fun n => Some (JNum n).
#[global] Instance Encode_bool : Encode bool := fun b => Some (JBool b).
#[global] Instance Encode_float64 : Encode float64 := fun f =>
  match f with F64 v => Some (JNum v) | _ => None end.
#[global] Instance Encode_iface : Encode iface := fun v =>
  match v with INil => Some JNull | IJson j => Some j | IUnsupported => None end.

#[global] Instance Encode_slice {A} `{Encode A} : Encode (slice A) := fun s =>
  match s with
  | None => Some JNull
  | Some l => JArr <$> mapM encode l
  end.

(** Map keys are written in increasing byte order. *)
Definition key_le {V} (a b : string * V) : Prop := String.leb a.1 b.1 = true.
#[global] Instance key_le_dec {V} : RelDecision (@key_le V).
Proof. intros a b. unfold key_le. apply _. Defined.

#[global] Instance Encode_map {V} `{Encode V} : Encode (gomap V) := fun m =>
  match m with
  | None => Some JNull
  | Some m =>
      JObj <$> mapM (fun '(k, v) => (fun j => (k, j)) <$> encode v)
                    (merge_sort key_le (map_to_list m))
  end.

(** A string field tagged [omitempty]. *)
Definition omitempty (key s : string) : list (string * json) :=
  if String.eqb s "" then [] else [(key, JStr s)].

#[global] Instance Encode_Revision : Encode Revision := fun r =>
  v ← encode (Version r); Some (JObj [("version", v)]).

#[global] Instance Encode_Position : Encode Position := fun p =>
  x ← encode (X p); y ← encode (Y p); Some (JObj [("x", x); ("y", y)]).

#[global] Instance Encode_ProcessGroup : Encode ProcessGroup := fun g =>
  let c := pgComponent g in
  r ← encode (pgRevision g); pos ← encode (pgPosition c);
  Some (JObj [("revision", r);
              ("component", JObj (omitempty "id" (pgId c) ++
                                  [("parentGroupId", JStr (pgParentGroupId c));
                                   ("name", JStr (pgName c));
                                   ("position", pos)]))]).

#[global] Instance Encode_ProcessorRelationship : Encode ProcessorRelationship := fun r =>
  Some (JObj [("name", JStr (relName r)); ("autoTerminate", JBool (AutoTerminate r))]).

#[global] Instance Encode_ProcessorConfig : Encode ProcessorConfig := fun k =>
  props ← encode (Properties k); atr ← encode (AutoTerminatedRelationships k);
  Some (JObj [("schedulingStrategy", JStr (SchedulingStrategy k));
              ("schedulingPeriod", JStr (SchedulingPeriod k));
              ("concurrentlySchedulableTaskCount", JNum (ConcurrentlySchedulableTaskCount k));
              ("properties", props);
              ("autoTerminatedRelationships", atr)]).

#[global] Instance Encode_Processor : Encode Processor := fun p =>
  let c := prComponent p in
  r ← encode (prRevision p); pos ← encode (prPosition c);
  cfg ← encode (prConfig c); rels ← encode (prRelationships c);
  Some (JObj [("revision", r);
              ("component", JObj (omitempty "id" (prId c) ++
                                  [("parentGroupId", JStr (prParentGroupId c));
                                   ("name", JStr (prName c));
                                   ("type", JStr (prType c));
                                   ("position", pos)] ++
                                  omitempty "state" (prState c) ++
                                  [("config", cfg);
                                   ("relationships", rels)]))]).

#[global] Instance Encode_ConnectionHand : Encode ConnectionHand := fun h =>
  Some (JObj [("type", JStr (chType h)); ("id", JStr (chId h))]).

#[global] Instance Encode_Connection : Encode Connection := fun cn =>
  let c := cnComponent cn in
  r ← encode (cnRevision cn); src ← encode (Source c); dst ← encode (Destination c);
  sel ← encode (SelectedRelationships c); bends ← encode (Bends c);
  Some (JObj [("revision", r);
              ("component", JObj (omitempty "id" (cnId c) ++
                                  [("parentGroupId", JStr (cnParentGroupId c));
                                   ("source", src);
                                   ("destination", dst);
                                   ("selectedRelationships", sel);
                                   ("bends", bends)]))]).

(* ------------------------------------------------------------------ *)
(** ** [encoding/json]: decoding into an existing value

    [decode_into j x = (x', ok)]: [x'] is [x] after decoding [j] into it,
    [ok = false] when a type mismatch was recorded (Go still stores the
    fields it could decode and returns an [UnmarshalTypeError]). *)

Class Decode (T : Type) := decode_into : json -> T -> T * bool.
Global Arguments decode_into {_ _} _ _.

#[global] Instance Decode_string : Decode string := fun j s =>
  match j with JStr s' => (s', true) | JNull => (s, true) | _ => (s, false) end.
#[global] Instance Decode_int : Decode Z := fun j n =>
  match j with JNum n' => (n', true) | JNull => (n, true) | _ => (n, false) end.
#[global] Instance Decode_bool : Decode bool := fun j b =>
  match j with JBool b' => (b', true) | JNull => (b, true) | _ => (b, false) end.
#[global] Instance Decode_float64 : Decode float64 := fun j f =>
  match j with JNum v => (F64 v, true) | JNull => (f, true) | _ => (f, false) end.
(** Into an [interface{}] the decoder stores a fresh generic value. *)
#[global] Instance Decode_iface : Decode iface := fun j _ =>
  match j with JNull => (INil, true) | _ => (IJson j, true) end.

(** The interface value stored when decoding the encoding of [v]: a
    non-nil interface whose value encodes as [null] comes back nil. *)
Definition decoded_iface (v : iface) : iface :=
  match v with IJson JNull => INil | _ => v end.

(** Array elements are decoded into the existing elements of the slice,
    new ones into zero values; the slice is cut to the array's length. *)
Fixpoint decode_elems {A} `{Decode A} (zero : A) (js : list json) (old : list A)
  : list A * bool :=
  match js with
  | [] => ([], true)
  | j :: js' =>
      let '(o, rest) := match old with [] => (zero, []) | o :: r => (o, r) end in
      let '(a, ok1) := decode_into j o in
      let '(l, ok2) := decode_elems zero js' rest in
      (a :: l, ok1 && ok2)
  end.

Definition decode_slice {A} `{Decode A} (zero : A) (j : json) (s : slice A) : slice A * bool :=
  match j with
  | JNull => (None, true)
  | JArr js => let '(l, ok) := decode_elems zero js (slice_elems s) in (Some l, ok)
  | _ => (s, false)
  end.

(** Into a map: a nil map is made first, each member is decoded into a
    fresh zero element and stored under its key. *)
Definition decode_map {V} `{Decode V} (zero : V) (j : json) (m : gomap V) : gomap V * bool :=
  match j with
  | JNull => (None, true)
  | JObj kvs =>
      let m0 := match m with Some m => m | None => ∅ end in
      (Some (fold_left (fun acc '(k, v) => <[k := (decode_into v zero).1]> acc) kvs m0),
       forallb (fun '(_, v) => (decode_into v zero).2) kvs)
  | _ => (m, false)
  end.

(** Object keys are matched against field names without regard to ASCII
    case (Go prefers an exact match; the field names here differ even up
    to case, so both agree). *)
Fixpoint lower (s : string) : string :=
  match s with
  | EmptyString => EmptyString
  | String a s' =>
      let n := nat_of_ascii a in
      String (if (65 <=? n)%nat && (n <=? 90)%nat then ascii_of_nat (n + 32) else a) (lower s')
  end.

(** Into a struct: [field k v x] decodes member [k] into its field, [None]
    for a key naming no field (ignored). *)
Definition decode_object {T} (field : string -> json -> T -> option (T * bool))
    (j : json) (x : T) : T * bool :=
  match j with
  | JNull => (x, true)
  | JObj kvs =>
      fold_left (fun '(x, ok) '(k, v) =>
                   match field (lower k) v x with
                   | Some (x', ok') => (x', ok && ok')
                   | None => (x, ok)
                   end) kvs (x, true)
  | _ => (x, false)
  end.

Definition on_field {F T} `{Decode F} (get : T -> F) (put : T -> F -> T) (v : json) (x : T)
  : option (T * bool) :=
  let '(f, ok) := decode_into v (get x) in Some (put x f, ok).

#[global] Instance Decode_Revision : Decode Revision :=
  decode_object (fun k v r =>
    match k with
    | "version" => on_field Version (fun _ n => {| Version := n |}) v r
    | _ => None
    end).

#[global] Instance Decode_Position : Decode Position :=
  decode_object (fun k v p =>
    match k with
    | "x" => on_field X (fun p x => {| X := x; Y := Y p |}) v p
    | "y" => on_field Y (fun p y => {| X := X p; Y := y |}) v p
    | _ => None
    end).

#[global] Instance Decode_ProcessGroupComponent : Decode ProcessGroupComponent :=
  decode_object (fun k v c =>
    let mk i pg n pos := {| pgId := i; pgParentGroupId := pg; pgName := n; pgPosition := pos |} in
    match k with
    | "id" => on_field pgId (fun c i => mk i (pgParentGroupId c) (pgName c) (pgPosition c)) v c
    | "parentgroupid" =>
        on_field pgParentGroupId (fun c pg => mk (pgId c) pg (pgName c) (pgPosition c)) v c
    | "name" => on_field pgName (fun c n => mk (pgId c) (pgParentGroupId c) n (pgPosition c)) v c
    | "position" =>
        on_field pgPosition (fun c pos => mk (pgId c) (pgParentGroupId c) (pgName c) pos) v c
    | _ => None
    end).

#[global] Instance Decode_ProcessGroup : Decode ProcessGroup :=
  decode_object (fun k v g =>
    match k with
    | "revision" =>
        on_field pgRevision (fun g r => {| pgRevision := r; pgComponent := pgComponent g |}) v g
    | "component" =>
        on_field pgComponent (fun g c => {| pgRevision := pgRevision g; pgComponent := c |}) v g
    | _ => None
    end).

Definition zero_ProcessorRelationship : ProcessorRelationship :=
  {| relName := ""; AutoTerminate := false |}.

#[global] Instance Decode_slice_string : Decode (slice string) := decode_slice "".
#[global] Instance Decode_slice_Position : Decode (slice Position) := decode_slice zero_Position.
#[global] Instance Decode_Properties : Decode (gomap iface) := decode_map INil.

#[global] Instance Decode_ProcessorRelationship : Decode ProcessorRelationship :=
  decode_object (fun k v r =>
    match k with
    | "name" => on_field relName (fun r n => {| relName := n; AutoTerminate := AutoTerminate r |}) v r
    | "autoterminate" =>
        on_field AutoTerminate (fun r b => {| relName := relName r; AutoTerminate := b |}) v r
    | _ => None
    end).

#[global] Instance Decode_slice_ProcessorRelationship : Decode (slice ProcessorRelationship) :=
  decode_slice zero_ProcessorRelationship.

#[global] Instance Decode_ProcessorConfig : Decode ProcessorConfig :=
  decode_object (fun k v c =>
    let mk ss sp n props atr :=
      {| SchedulingStrategy := ss; SchedulingPeriod := sp;
         ConcurrentlySchedulableTaskCount := n; Properties := props;
         AutoTerminatedRelationships := atr |} in
    let ss := SchedulingStrategy c in let sp := SchedulingPeriod c in
    let n := ConcurrentlySchedulableTaskCount c in let props := Properties c in
    let atr := AutoTerminatedRelationships c in
    match k with
    | "schedulingstrategy" => on_field SchedulingStrategy (fun _ x => mk x sp n props atr) v c
    | "schedulingperiod" => on_field SchedulingPeriod (fun _ x => mk ss x n props atr) v c
    | "concurrentlyschedulabletaskcount" =>
        on_field ConcurrentlySchedulableTaskCount (fun _ x => mk ss sp x props atr) v c
    | "properties" => on_field Properties (fun _ x => mk ss sp n x atr) v c
    | "autoterminatedrelationships" =>
        on_field AutoTerminatedRelationships (fun _ x => mk ss sp n props x) v c
    | _ => None
    end).

#[global] Instance Decode_ProcessorComponent : Decode ProcessorComponent :=
  decode_object (fun k v c =>
    let mk i pg n t pos st cfg rels :=
      {| prId := i; prParentGroupId := pg; prName := n; prType := t; prPosition := pos;
         prState := st; prConfig := cfg; prRelationships := rels |} in
    let i := prId c in let pg := prParentGroupId c in let n := prName c in
    let t := prType c in let pos := prPosition c in let st := prState c in
    let cfg := prConfig c in let rels := prRelationships c in
    match k with
    | "id" => on_field prId (fun _ x => mk x pg n t pos st cfg rels) v c
    | "parentgroupid" => on_field prParentGroupId (fun _ x => mk i x n t pos st cfg rels) v c
    | "name" => on_field prName (fun _ x => mk i pg x t pos st cfg rels) v c
    | "type" => on_field prType (fun _ x => mk i pg n x pos st cfg rels) v c
    | "position" => on_field prPosition (fun _ x => mk i pg n t x st cfg rels) v c
    | "state" => on_field prState (fun _ x => mk i pg n t pos x cfg rels) v c
    | "config" => on_field prConfig (fun _ x => mk i pg n t pos st x rels) v c
    | "relationships" => on_field prRelationships (fun _ x => mk i pg n t pos st cfg x) v c
    | _ => None
    end).

#[global] Instance Decode_Processor : Decode Processor :=
  decode_object (fun k v p =>
    match k with
    | "revision" =>
        on_field prRevision (fun p r => {| prRevision := r; prComponent := prComponent p |}) v p
    | "component" =>
        on_field prComponent (fun p c => {| prRevision := prRevision p; prComponent := c |}) v p
    | _ => None
    end).

#[global] Instance Decode_ConnectionHand : Decode ConnectionHand :=
  decode_object (fun k v h =>
    match k with
    | "type" => on_field chType (fun h t => {| chType := t; chId := chId h |}) v h
    | "id" => on_field chId (fun h i => {| chType := chType h; chId := i |}) v h
    | _ => None
    end).

#[global] Instance Decode_ConnectionComponent : Decode ConnectionComponent :=
  decode_object (fun k v c =>
    let mk i pg s d sel b :=
      {| cnId := i; cnParentGroupId := pg; Source := s; Destination := d;
         SelectedRelationships := sel; Bends := b |} in
    let i := cnId c in let pg := cnParentGroupId c in let s := Source c in
    let d := Destination c in let sel := SelectedRelationships c in let b := Bends c in
    match k with
    | "id" => on_field cnId (fun _ x => mk x pg s d sel b) v c
    | "parentgroupid" => on_field cnParentGroupId (fun _ x => mk i x s d sel b) v c
    | "source" => on_field Source (fun _ x => mk i pg x d sel b) v c
    | "destination" => on_field Destination (fun _ x => mk i pg s x sel b) v c
    | "selectedrelationships" => on_field SelectedRelationships (fun _ x => mk i pg s d x b) v c
    | "bends" => on_field Bends (fun _ x => mk i pg s d sel x) v c
    | _ => None
    end).

#[global] Instance Decode_Connection : Decode Connection :=
  decode_object (fun k v cn =>
    match k with
    | "revision" =>
        on_field cnRevision (fun cn r => {| cnRevision := r; cnComponent := cnComponent cn |}) v cn
    | "component" =>
        on_field cnComponent (fun cn c => {| cnRevision := cnRevision cn; cnComponent := c |}) v cn
    | _ => None
    end).

(* ------------------------------------------------------------------ *)
(** ** [net/http] and the client *)

Inductive error :=
| ErrNewRequest                (* from http.NewRequest *)
| ErrTransport                 (* from Client.Do *)
| ErrStatus (code : Z)         (* fmt.Errorf("The call has failed with the code of %d", code) *)
| ErrDecode                    (* from json.Decoder.Decode *)
| ErrUnsupportedValue.         (* from json.Encoder.Encode *)

Record request := {
  req_method : string;
  req_url : string;
  req_body : option (list json);      (* None: nil reader; Some b: a buffer *)
  req_content_type : option string
}.

Inductive body := BodyJson (j : json) | BodyMalformed.

Record response := { StatusCode : Z; Body : body }.

Record Net := {
  NewRequestOk : string -> string -> bool;
  Do : request -> option response      (* None: transport error *)
}.

Record Client := { cConfig : Config; cClient : Net }.

(** The untyped [nil] passed for an absent body. *)
Inductive Nil : Type :=.
#[global] Instance Encode_Nil : Encode Nil := fun x => match x with end.
#[global] Instance Decode_Nil : Decode Nil := fun _ x => match x with end.

(** [json.NewEncoder(buffer).Encode(x)]: the documents written to the
    buffer and the error returned; nothing is written on error. *)
Definition Encoder_Encode {In} `{Encode In} (x : In) : list json * option error :=
  match encode x with
  | Some j => ([j], None)
  | None => ([], Some ErrUnsupportedValue)
  end.

(** [json.NewDecoder(body).Decode(out)]. A syntax error is found before
    anything is stored. *)
Definition Decoder_Decode {Out} `{Decode Out} (b : body) (o : Out) : Out * option error :=
  match b with
  | BodyMalformed => (o, Some ErrDecode)
  | BodyJson j => let '(o', ok) := decode_into j o in (o', if ok then None else Some ErrDecode)
  end.

(* ------------------------------------------------------------------ *)
(** ** JsonCall *)

Section JsonCall.
Context {In Out : Type} `{Encode In} `{Decode Out}.

(** Lines 35-48: the request handed to [Client.Do]. The error of
    [Encode] is not looked at. *)
Definition json_request (method url : string) (bodyIn : option In) : request :=
  let requestBody :=
    match bodyIn with
    | Some x => let '(buffer, _) := Encoder_Encode x in Some buffer
    | None => None
    end in
  {| req_method := method; req_url := url; req_body := requestBody;
     req_content_type :=
       match bodyIn with
       | Some _ => Some "application/json; charset=utf-8"
       | None => None
       end |}.

(** Lines 50-69: classification of the outcome of [Client.Do]; returns
    the error, the status code and the new value of [*bodyOut]. *)
Definition json_response (r : option response) (bodyOut : option Out)
  : option error * Z * option Out :=
  match r with
  | None => (Some ErrTransport, 0, bodyOut)
  | Some response =>
      let code := StatusCode response in
      if code =? 404 then (None, code, bodyOut)
      else if 300 <=? code then (Some (ErrStatus code), code, bodyOut)
      else match bodyOut with
           | Some o =>
               let '(o', err) := Decoder_Decode (Body response) o in
               match err with
               | Some e => (Some e, code, Some o')
               | None => (None, code, Some o')
               end
           | None => (None, code, None)
           end
  end.

Definition JsonCall (c : Client) (method url : string) (bodyIn : option In)
    (bodyOut : option Out) : list request * (option error * Z * option Out) :=
  if negb (NewRequestOk (cClient c) method url) then ([], (Some ErrNewRequest, 0, bodyOut))
  else
    let request := json_request method url bodyIn in
    ([request], json_response (Do (cClient c) request) bodyOut).

End JsonCall.

Definition out_or {T} (x : T) (o : option T) : T :=
  match o with Some y => y | None => x end.

(* ------------------------------------------------------------------ *)
(** ** Process groups *)

Definition host (c : Client) : string := Host (cConfig c).
Definition api_path (c : Client) : string := ApiPath (cConfig c).

Definition CreateProcessGroup (c : Client) (processGroup : ProcessGroup)
  : list request * (option error * ProcessGroup) :=
  let url := "http://" +:+ host c +:+ "/" +:+ api_path c +:+ "/process-groups/" +:+
             pgParentGroupId (pgComponent processGroup) +:+ "/process-groups" in
  let '(sent, (err, _, out)) := JsonCall c "POST" url (Some processGroup) (Some processGroup) in
  (sent, (err, out_or processGroup out)).

Definition GetProcessGroup (c : Client) (processGroupId : string)
  : list request * (option ProcessGroup * option error) :=
  let url := "http://" +:+ host c +:+ "/" +:+ api_path c +:+ "/process-groups/" +:+
             processGroupId in
  let processGroup := zero_ProcessGroup in
  let '(sent, (err, code, out)) := JsonCall c "GET" url (@None Nil) (Some processGroup) in
  (sent,
   match err with
   | Some e => (None, Some e)
   | None => if 404 =? code then (None, None) else (Some (out_or processGroup out), None)
   end).

Definition UpdateProcessGroup (c : Client) (processGroup : ProcessGroup)
  : list request * (option error * ProcessGroup) :=
  let url := "http://" +:+ host c +:+ "/" +:+ api_path c +:+ "/process-groups/" +:+
             pgId (pgComponent processGroup) in
  let '(sent, (err, _, out)) := JsonCall c "PUT" url (Some processGroup) (Some processGroup) in
  (sent, (err, out_or processGroup out)).

Definition DeleteProcessGroup (c : Client) (processGroupId : string)
  : list request * option error :=
  let url := "http://" +:+ host c +:+ "/" +:+ api_path c +:+ "/process-groups/" +:+
             processGroupId in
  let '(sent, (err, _, _)) := JsonCall c "DELETE" url (@None Nil) (@None Nil) in
  (sent, err).

(* ------------------------------------------------------------------ *)
(** ** Processors *)

Definition is_nil (v : iface) : bool := match v with INil => true | _ => false end.

(** [for k, v := range Properties { if v == nil { delete(Properties, k) } }]
    (deleting the entry being visited is allowed and does not disturb the
    iteration); ranging over a nil map does nothing. Always returns nil. *)
Definition ProcessorCleanupNilProperties (processor : Processor) : Processor :=
  let config := prConfig (prComponent processor) in
  match Properties config with
  | None => processor
  | Some props =>
      let props' := foldr (fun '(k, v) acc => if is_nil v then delete k acc else acc)
                          props (map_to_list props) in
      set_prConfig processor (set_Properties config (Some props'))
  end.

Definition CreateProcessor (c : Client) (processor : Processor)
  : list request * (option error * Processor) :=
  let url := "http://" +:+ host c +:+ "/" +:+ api_path c +:+ "/process-groups/" +:+
             prParentGroupId (prComponent processor) +:+ "/processors" in
  let '(sent, (err, _, out)) := JsonCall c "POST" url (Some processor) (Some processor) in
  (sent, (err, ProcessorCleanupNilProperties (out_or processor out))).

(** Lines 184-190. *)
Definition auto_terminated (rels : slice ProcessorRelationship) : list string :=
  fold_left (fun acc v => if AutoTerminate v then acc ++ [relName v] else acc)
            (slice_elems rels) [].

Definition GetProcessor (c : Client) (processorId : string)
  : list request * (option Processor * option error) :=
  let url := "http://" +:+ host c +:+ "/" +:+ api_path c +:+ "/processors/" +:+ processorId in
  let processor := zero_Processor in
  let '(sent, (err, code, out)) := JsonCall c "GET" url (@None Nil) (Some processor) in
  (sent,
   match err with
   | Some e => (None, Some e)
   | None =>
       if 404 =? code then (None, None)
       else
         let processor := ProcessorCleanupNilProperties (out_or processor out) in
         let relationships := auto_terminated (prRelationships (prComponent processor)) in
         let config := prConfig (prComponent processor) in
         (Some (set_prConfig processor
                  (set_AutoTerminatedRelationships config (Some relationships))), None)
   end).

Definition UpdateProcessor (c : Client) (processor : Processor)
  : list request * (option error * Processor) :=
  let url := "http://" +:+ host c +:+ "/" +:+ api_path c +:+ "/processors/" +:+
             prId (prComponent processor) in
  let '(sent, (err, _, out)) := JsonCall c "PUT" url (Some processor) (Some processor) in
  (sent, (err, ProcessorCleanupNilProperties (out_or processor out))).

Definition DeleteProcessor (c : Client) (processorId : string) : list request * option error :=
  let url := "http://" +:+ host c +:+ "/" +:+ api_path c +:+ "/processors/" +:+ processorId in
  let '(sent, (err, _, _)) := JsonCall c "DELETE" url (@None Nil) (@None Nil) in
  (sent, err).

Definition state_update (processor : Processor) (state : string) : Processor :=
  {| prRevision := {| Version := Version (prRevision processor) |};
     prComponent :=
       {| prId := prId (prComponent processor); prParentGroupId := ""; prName := "";
          prType := ""; prPosition := zero_Position; prState := state;
          prConfig := zero_ProcessorConfig; prRelationships := None |} |}.

Definition SetProcessorState (c : Client) (processor : Processor) (state : string)
  : list request * (option error * Processor) :=
  let stateUpdate := state_update processor state in
  let url := "http://" +:+ host c +:+ "/" +:+ api_path c +:+ "/processors/" +:+
             prId (prComponent processor) in
  let '(sent, (err, _, _)) := JsonCall c "PUT" url (Some stateUpdate) (@None Nil) in
  (sent, match err with
         | None => (None, set_prState processor state)
         | Some e => (Some e, processor)
         end).

Definition StartProcessor (c : Client) (processor : Processor) :=
  SetProcessorState c processor "RUNNING".

Definition StopProcessor (c : Client) (processor : Processor) :=
  SetProcessorState c processor "STOPPED".

(* ------------------------------------------------------------------ *)
(** ** Connections *)

Definition CreateConnection (c : Client) (connection : Connection)
  : list request * (option error * Connection) :=
  let url := "http://" +:+ host c +:+ "/" +:+ api_path c +:+ "/process-groups/" +:+
             cnParentGroupId (cnComponent connection) +:+ "/connections" in
  let '(sent, (err, _, out)) := JsonCall c "POST" url (Some connection) (Some connection) in
  (sent, (err, out_or connection out)).

Definition GetConnection (c : Client) (connectionId : string)
  : list request * (option Connection * option error) :=
  let url := "http://" +:+ host c +:+ "/" +:+ api_path c +:+ "/connections/" +:+ connectionId in
  let connection := zero_Connection in
  let '(sent, (err, code, out)) := JsonCall c "GET" url (@None Nil) (Some connection) in
  (sent,
   match err with
   | Some e => (None, Some e)
   | None => if 404 =? code then (None, None) else (Some (out_or connection out), None)
   end).

Definition UpdateConnection (c : Client) (connection : Connection)
  : list request * (option error * Connection) :=
  let url := "http://" +:+ host c +:+ "/" +:+ api_path c +:+ "/connections/" +:+
             cnId (cnComponent connection) in
  let '(sent, (err, _, out)) := JsonCall c "PUT" url (Some connection) (Some connection) in
  (sent, (err, out_or connection out)).

Definition DeleteConnection (c : Client) (connectionId : string) : list request * option error :=
  let url := "http://" +:+ host c +:+ "/" +:+ api_path c +:+ "/connections/" +:+ connectionId in
  let '(sent, (err, _, _)) := JsonCall c "DELETE" url (@None Nil) (@None Nil) in
  (sent, err).

(* ------------------------------------------------------------------ *)
(** ** Concrete clients for the scenarios *)

Definition nifi_config : Config := {| Host := "localhost:8080"; ApiPath := "nifi-api" |}.

(** A server answering every request with the given response. *)
Definition client_answering (r : response) : Client :=
  {| cConfig := nifi_config;
     cClient := {| NewRequestOk := fun _ _ => true; Do := fun _ => Some r |} |}.

Definition p1_response : response :=
  {| StatusCode := 200;
     Body := BodyJson (JObj [
       ("revision", JObj [("version", JNum 4)]);
       ("component", JObj [
          ("id", JStr "p1"); ("name", JStr "gen"); ("state", JStr "STOPPED");
          ("config", JObj [("properties", JObj [("File Size", JStr "1kb");
                                                 ("Batch Size", JNull)])]);
          ("relationships", JArr [
             JObj [("name", JStr "success"); ("autoTerminate", JBool true)];
             JObj [("name", JStr "failure"); ("autoTerminate", JBool false)]])])]) |}.

(** The URLs the operations format, named for the statements below. *)
Definition process_group_url (c : Client) (id : string) : string :=
  "http://" +:+ host c +:+ "/" +:+ api_path c +:+ "/process-groups/" +:+ id.
Definition processor_url (c : Client) (id : string) : string :=
  "http://" +:+ host c +:+ "/" +:+ api_path c +:+ "/processors/" +:+ id.
Definition connection_url (c : Client) (id : string) : string :=
  "http://" +:+ host c +:+ "/" +:+ api_path c +:+ "/connections/" +:+ id.
Definition process_group_children_url (c : Client) (parentId : string) : string :=
  "http://" +:+ host c +:+ "/" +:+ api_path c +:+ "/process-groups/" +:+ parentId +:+
  "/process-groups".

(** The server is reached for [method url] and answers with [code]. *)
Definition responds {In} `{Encode In} (c : Client) (method url : string) (bodyIn : option In)
    (code : Z) : Prop :=
  NewRequestOk (cClient c) method url = true /\
  exists resp, Do (cClient c) (json_request method url bodyIn) = Some resp /\
               StatusCode resp = code.

Definition json_content_type : option string := Some "application/json; charset=utf-8".

(** No property of the processor holds the nil interface. *)
Definition no_nil_properties (p : Processor) : Prop :=
  match Properties (prConfig (prComponent p)) with
  | None => True
  | Some m => forall k v, m !! k = Some v -> is_nil v = false
  end.

(** The state-change body as the spec's scenario writes it:
    [{"revision":{"version":v},"component":{"id":id,"state":state}}]. *)
Definition spec_minimal_state_body (id : string) (v : Z) (state : string) : json :=
  JObj [("revision", JObj [("version", JNum v)]);
        ("component", JObj [("id", JStr id); ("state", JStr state)])].

(** The same client with its server answering every request with [r]. *)
Definition client_with_response (c : Client) (r : response) : Client :=
  {| cConfig := cConfig c;
     cClient := {| NewRequestOk := NewRequestOk (cClient c); Do := fun _ => Some r |} |}.

(** Sample inputs. *)
Definition not_found : response := {| StatusCode := 404; Body := BodyMalformed |}.
Definition client_404 : Client := client_answering not_found.

Definition processor_p1_rev3 : Processor :=
  set_prState
    {| prRevision := {| Version := 3 |};
       prComponent := {| prId := "p1"; prParentGroupId := "root"; prName := "gen";
                         prType := "org.apache.nifi.processors.standard.GenerateFlowFile";
                         prPosition := {| X := F64 10; Y := F64 20 |}; prState := "";
                         prConfig := zero_ProcessorConfig; prRelationships := None |} |}
    "STOPPED".

Definition etl_group (version : Z) : ProcessGroup :=
  {| pgRevision := {| Version := version |};
     pgComponent := {| pgId := ""; pgParentGroupId := "root"; pgName := "etl";
                       pgPosition := zero_Position |} |}.

Definition etl_created : response :=
  {| StatusCode := 201;
     Body := BodyJson (JObj [("revision", JObj [("version", JNum 1)]);
                             ("component", JObj [("id", JStr "a1b2"); ("parentGroupId", JStr "root");
                                                 ("name", JStr "etl")])]) |}.

(** A processor whose position [encoding/json] refuses. *)
Definition processor_nan : Processor :=
  {| prRevision := {| Version := 1 |};
     prComponent := {| prId := "p2"; prParentGroupId := "root"; prName := "bad";
                       prType := ""; prPosition := {| X := F64NaN; Y := F64 0 |};
                       prState := ""; prConfig := zero_ProcessorConfig;
                       prRelationships := None |} |}.

(** More URLs and requests, for the properties of the other operations. *)
Definition group_processors_url (c : Client) (parentId : string) : string :=
  "http://" +:+ host c +:+ "/" +:+ api_path c +:+ "/process-groups/" +:+ parentId +:+
  "/processors".
Definition group_connections_url (c : Client) (parentId : string) : string :=
  "http://" +:+ host c +:+ "/" +:+ api_path c +:+ "/process-groups/" +:+ parentId +:+
  "/connections".

(** A request without body or Content-Type (GET, DELETE). *)
Definition bodiless_request (method url : string) : request :=
  {| req_method := method; req_url := url; req_body := None; req_content_type := None |}.

(** A request whose body is the JSON encoding of [x] (an empty buffer when
    [x] cannot be encoded). *)
Definition payload_request {In} `{Encode In} (method url : string) (x : In) : request :=
  {| req_method := method; req_url := url;
     req_body := Some (match encode x with Some j => [j] | None => [] end);
     req_content_type := json_content_type |}.

(** What is sent: the request, unless [http.NewRequest] refuses it. *)
Definition sent_if (c : Client) (r : request) : list request :=
  if NewRequestOk (cClient c) (req_method r) (req_url r) then [r] else [].

(** A processor whose properties hold a string, a nil interface and a
    non-nil interface holding a value that encodes as [null]. *)
Definition processor_with_properties (v : iface) : Processor :=
  set_prConfig processor_p1_rev3
    (set_AutoTerminatedRelationships
       (set_Properties zero_ProcessorConfig
          (Some (<["File Size" := IJson (JStr "1 KB")]>
                 (<["Batch Size" := INil]> (<["Custom Text" := v]> ∅)))))
       (Some ["success"])).

(** A server answering with the encoding of [p], as NiFi does for an
    entity it stores unchanged. *)
Definition echo (p : Processor) : response :=
  {| StatusCode := 200; Body := BodyJson (match encode p with Some j => j | None => JNull end) |}.

(* ================================================================== *)
(** * Properties *)

(** ** JsonCall *)

Section JsonCallFacts.
Context {In Out : Type} `{Encode In} `{Decode Out}.

Lemma JsonCall_sent (c : Client) method url (bodyIn : option In) (bodyOut : option Out) :
  NewRequestOk (cClient c) method url = true ->
  JsonCall c method url bodyIn bodyOut =
    ([json_request method url bodyIn],
     json_response (Do (cClient c) (json_request method url bodyIn)) bodyOut).
Proof. intros Hok. unfold JsonCall. rewrite Hok. reflexivity. Qed.

(** C1: with a response in hand, JsonCall returns nil and the code for
    404 without decoding, an error carrying the code for any other code
    from 300 on, and for a code below 300 nil, or the decoded body in the
    output target with a decode error when the body does not decode. *)
Theorem JsonCall_status_classification (c : Client) method url (bodyIn : option In)
    (bodyOut : option Out) (resp : response) :
  NewRequestOk (cClient c) method url = true ->
  Do (cClient c) (json_request method url bodyIn) = Some resp ->
  let code := StatusCode resp in
  let result := snd (JsonCall c method url bodyIn bodyOut) in
  (code = 404 -> result = (None, 404, bodyOut)) /\
  (300 <= code -> code <> 404 -> result = (Some (ErrStatus code), code, bodyOut)) /\
  (code < 300 ->
   match bodyOut with
   | None => result = (None, code, None)
   | Some o =>
       match Body resp with
       | BodyMalformed => result = (Some ErrDecode, code, Some o)
       | BodyJson j =>
           let '(o', ok) := decode_into j o in
           result = (if ok then None else Some ErrDecode, code, Some o')
       end
   end).
Proof.
  intros Hok Hdo code result. subst code result.
  rewrite (JsonCall_sent c method url bodyIn bodyOut Hok), Hdo. simpl.
  destruct resp as [st b]; simpl.
  split; [| split].
  - intros ->. reflexivity.
  - intros Hge Hne. apply Z.eqb_neq in Hne. rewrite Hne.
    apply Z.leb_le in Hge. rewrite Hge. reflexivity.
  - intros Hlt. assert (Hne : (st =? 404) = false) by (apply Z.eqb_neq; lia).
    assert (Hge : (300 <=? st) = false) by (apply Z.leb_gt; lia).
    rewrite Hne, Hge.
    destruct bodyOut as [o|]; [| reflexivity].
    destruct b as [j|]; simpl; [| reflexivity].
    destruct (decode_into j o) as [o' []]; reflexivity.
Qed.

End JsonCallFacts.

(** ** Get, Delete *)

Lemma JsonCall_404 {In Out} `{Encode In} `{Decode Out} (c : Client) method url
    (bodyIn : option In) (bodyOut : option Out) :
  responds c method url bodyIn 404 ->
  snd (JsonCall c method url bodyIn bodyOut) = (None, 404, bodyOut).
Proof.
  intros [Hok [resp [Hdo Hcode]]].
  rewrite (JsonCall_sent c method url bodyIn bodyOut Hok), Hdo. simpl.
  rewrite Hcode. reflexivity.
Qed.

Ltac call_404 H :=
  match goal with
  | |- context [JsonCall ?c ?m ?u ?bi ?bo] =>
      let E := fresh "E" in
      pose proof (JsonCall_404 c m u bi bo H) as E;
      destruct (JsonCall c m u bi bo) as [? [[? ?] ?]]; simpl in E; inversion E; subst
  end.

(** C3: each of GetProcessGroup, GetProcessor and GetConnection returns no
    resource and no error when the server answers 404 to its own GET,
    whatever it answers at the other resources' URLs. *)
Theorem Get_not_found (c : Client) (id : string) :
  (responds c "GET" (process_group_url c id) (@None Nil) 404 ->
   snd (GetProcessGroup c id) = (None, None)) /\
  (responds c "GET" (processor_url c id) (@None Nil) 404 ->
   snd (GetProcessor c id) = (None, None)) /\
  (responds c "GET" (connection_url c id) (@None Nil) 404 ->
   snd (GetConnection c id) = (None, None)).
Proof.
  split; [| split].
  - intros Hg. unfold GetProcessGroup. call_404 Hg. reflexivity.
  - intros Hp. unfold GetProcessor. call_404 Hp. reflexivity.
  - intros Hc. unfold GetConnection. call_404 Hc. reflexivity.
Qed.

Lemma Get_not_found_witness :
  snd (GetProcessGroup client_404 "gone") = (None, None) /\
  snd (GetProcessor client_404 "gone") = (None, None) /\
  snd (GetConnection client_404 "gone") = (None, None).
Proof.
  split; [| split];
    [apply (proj1 (Get_not_found client_404 "gone"))
    | apply (proj1 (proj2 (Get_not_found client_404 "gone")))
    | apply (proj2 (proj2 (Get_not_found client_404 "gone")))];
    (split; [reflexivity | eexists; split; reflexivity]).
Defined.

(** C7 (as the code has it): each of DeleteProcessGroup, DeleteProcessor
    and DeleteConnection returns a nil error, the same outcome as a
    successful delete, when the server answers 404 to its own DELETE,
    whatever it answers at the other resources' URLs. *)
Theorem Delete_not_found_is_nil (c : Client) (id : string) :
  (responds c "DELETE" (process_group_url c id) (@None Nil) 404 ->
   snd (DeleteProcessGroup c id) = None) /\
  (responds c "DELETE" (processor_url c id) (@None Nil) 404 ->
   snd (DeleteProcessor c id) = None) /\
  (responds c "DELETE" (connection_url c id) (@None Nil) 404 ->
   snd (DeleteConnection c id) = None).
Proof.
  split; [| split].
  - intros Hg. unfold DeleteProcessGroup. call_404 Hg. reflexivity.
  - intros Hp. unfold DeleteProcessor. call_404 Hp. reflexivity.
  - intros Hc. unfold DeleteConnection. call_404 Hc. reflexivity.
Qed.

Lemma Delete_not_found_is_nil_witness :
  snd (DeleteProcessGroup client_404 "gone") = None /\
  snd (DeleteProcessor client_404 "gone") = None /\
  snd (DeleteConnection client_404 "gone") = None.
Proof.
  split; [| split];
    [apply (proj1 (Delete_not_found_is_nil client_404 "gone"))
    | apply (proj1 (proj2 (Delete_not_found_is_nil client_404 "gone")))
    | apply (proj2 (proj2 (Delete_not_found_is_nil client_404 "gone")))];
    (split; [reflexivity | eexists; split; reflexivity]).
Defined.

(** C7: a DELETE of an absent resource (404) does not surface an error:
    each Delete returns nil. *)
Lemma Delete_404_no_error :
  DeleteProcessGroup client_404 "gone" =
    ([json_request "DELETE" "http://localhost:8080/nifi-api/process-groups/gone" (@None Nil)],
     None) /\
  snd (DeleteProcessor client_404 "gone") = None /\
  snd (DeleteConnection client_404 "gone") = None.
Proof. repeat split; reflexivity. Qed.

Lemma JsonCall_status_classification_witness :
  snd (JsonCall client_404 "DELETE" "http://localhost:8080/nifi-api/processors/p1"
         (@None Nil) (@None Nil)) = (None, 404, None).
Proof.
  exact (proj1 (JsonCall_status_classification (In:=Nil) (Out:=Nil) client_404 "DELETE"
                  "http://localhost:8080/nifi-api/processors/p1" None None not_found
                  eq_refl eq_refl) eq_refl).
Defined.

(** ** Processor state transitions *)

(** C4: after SetProcessorState with a nil error the processor differs
    from the one passed in by its state field alone, which holds the
    target state; after an error it is the one passed in. *)
Theorem SetProcessorState_frame (c : Client) (p : Processor) (state : string) :
  let '(_, (err, p')) := SetProcessorState c p state in
  match err with
  | None => prState (prComponent p') = state /\ set_prState p' (prState (prComponent p)) = p
  | Some _ => p' = p
  end.
Proof.
  unfold SetProcessorState.
  destruct (JsonCall c _ _ _ _) as [sent [[[e|] code] out]]; [reflexivity |].
  destruct p as [r [i pg n t pos st cfg rels]]. split; reflexivity.
Qed.

(** C10: when the server answers 404 to the state-change PUT,
    SetProcessorState returns nil and sets the state field, exactly as
    when the server answers 200. *)
Theorem SetProcessorState_404 (c : Client) (p : Processor) (state : string) :
  responds c "PUT" (processor_url c (prId (prComponent p))) (Some (state_update p state)) 404 ->
  snd (SetProcessorState c p state) = (None, set_prState p state) /\
  (forall b, snd (SetProcessorState (client_with_response c {| StatusCode := 200; Body := b |})
                                   p state) =
             snd (SetProcessorState c p state)).
Proof.
  intros H404.
  assert (E : snd (SetProcessorState c p state) = (None, set_prState p state)).
  { unfold SetProcessorState. call_404 H404. reflexivity. }
  split; [exact E |]. intros b. rewrite E.
  destruct H404 as [Hok _]. unfold SetProcessorState.
  rewrite JsonCall_sent by exact Hok. reflexivity.
Qed.

Lemma SetProcessorState_404_witness :
  snd (SetProcessorState client_404 processor_p1_rev3 "RUNNING") =
    (None, set_prState processor_p1_rev3 "RUNNING") /\
  (forall b, snd (SetProcessorState (client_with_response client_404
                                       {| StatusCode := 200; Body := b |})
                                    processor_p1_rev3 "RUNNING") =
             snd (SetProcessorState client_404 processor_p1_rev3 "RUNNING")).
Proof.
  apply (SetProcessorState_404 client_404 processor_p1_rev3 "RUNNING").
  split; [reflexivity | eexists; split; reflexivity].
Defined.

(** The state-change PUT carries the caller's revision, the id (omitted
    when empty) and the target state (omitted when empty); every other
    field of the component, which [state_update] leaves at its zero value
    and which has no [omitempty] tag, is sent too. *)
Theorem SetProcessorState_request (c : Client) (p : Processor) (state : string) :
  let id := prId (prComponent p) in
  NewRequestOk (cClient c) "PUT" (processor_url c id) = true ->
  fst (SetProcessorState c p state) =
    [{| req_method := "PUT"; req_url := processor_url c id;
        req_body := Some [JObj [
          ("revision", JObj [("version", JNum (Version (prRevision p)))]);
          ("component", JObj (omitempty "id" id ++
             [("parentGroupId", JStr ""); ("name", JStr ""); ("type", JStr "");
              ("position", JObj [("x", JNum 0); ("y", JNum 0)])] ++
             omitempty "state" state ++
             [("config", JObj [("schedulingStrategy", JStr ""); ("schedulingPeriod", JStr "");
                               ("concurrentlySchedulableTaskCount", JNum 0);
                               ("properties", JNull); ("autoTerminatedRelationships", JNull)]);
              ("relationships", JNull)]))]];
        req_content_type := json_content_type |}].
Proof.
  intros id Hok. unfold SetProcessorState.
  rewrite (JsonCall_sent c "PUT" (processor_url c id) _ _ Hok).
  destruct (json_response _ _) as [[? ?] ?]. reflexivity.
Qed.

Lemma SetProcessorState_request_witness :
  fst (StartProcessor client_404 processor_p1_rev3) =
    [{| req_method := "PUT"; req_url := "http://localhost:8080/nifi-api/processors/p1";
        req_body := Some [JObj [
          ("revision", JObj [("version", JNum 3)]);
          ("component", JObj
             [("id", JStr "p1"); ("parentGroupId", JStr ""); ("name", JStr ""); ("type", JStr "");
              ("position", JObj [("x", JNum 0); ("y", JNum 0)]);
              ("state", JStr "RUNNING");
              ("config", JObj [("schedulingStrategy", JStr ""); ("schedulingPeriod", JStr "");
                               ("concurrentlySchedulableTaskCount", JNum 0);
                               ("properties", JNull); ("autoTerminatedRelationships", JNull)]);
              ("relationships", JNull)])]];
        req_content_type := json_content_type |}].
Proof. exact (SetProcessorState_request client_404 processor_p1_rev3 "RUNNING" eq_refl). Defined.

(** C2: starting processor p1 at revision 3 does not send the minimal body
    [{"revision":{"version":3},"component":{"id":"p1","state":"RUNNING"}}]
    that [state_update] sets out to build: without [omitempty] on the other
    fields of ProcessorComponent, the component also carries the zero
    parentGroupId, name, type, position, config and relationships. *)
Lemma StartProcessor_body_not_minimal :
  map req_body (fst (StartProcessor client_404 processor_p1_rev3)) <>
    [Some [spec_minimal_state_body "p1" 3 "RUNNING"]].
Proof. vm_compute. intros H. discriminate H. Qed.

(** ** Nil-property normalization *)

Definition has_value (kv : string * iface) : Prop := is_nil kv.2 = false.

Lemma cleanup_fold_lookup (l : list (string * iface)) (m0 : gmap string iface) (k : string) :
  foldr (fun '(k, v) acc => if is_nil v then delete k acc else acc) m0 l !! k =
  if existsb (fun '(k', v) => String.eqb k' k && is_nil v) l then None else m0 !! k.
Proof.
  induction l as [|[k' v] l IH]; simpl; [done |].
  destruct (is_nil v) eqn:Hv.
  - rewrite andb_true_r. destruct (String.eqb_spec k' k) as [->|Hne]; simpl.
    + by rewrite lookup_delete_eq.
    + rewrite lookup_delete_ne by congruence. exact IH.
  - rewrite andb_false_r. exact IH.
Qed.

Lemma existsb_nil_entry (m : gmap string iface) (k : string) :
  existsb (fun '(k', v) => String.eqb k' k && is_nil v) (map_to_list m) =
  match m !! k with Some v => is_nil v | None => false end.
Proof.
  destruct (existsb _ _) eqn:E.
  - apply existsb_exists in E as [[k' v'] [Hin Hb]].
    apply andb_true_iff in Hb as [Hk Hn]. apply String.eqb_eq in Hk. subst k'.
    apply list_elem_of_In, elem_of_map_to_list in Hin. by rewrite Hin.
  - destruct (m !! k) as [v|] eqn:Hk; [| done].
    destruct (is_nil v) eqn:Hn; [| done].
    assert (Hex : existsb (fun '(k', v) => String.eqb k' k && is_nil v) (map_to_list m) = true).
    { apply existsb_exists. exists (k, v). split.
      - apply list_elem_of_In, elem_of_map_to_list. exact Hk.
      - rewrite String.eqb_refl, Hn. reflexivity. }
    congruence.
Qed.

(** The loop of ProcessorCleanupNilProperties keeps exactly the entries
    whose value is not nil. *)
Lemma cleanup_fold_filter (m : gmap string iface) :
  foldr (fun '(k, v) acc => if is_nil v then delete k acc else acc) m (map_to_list m) =
  filter has_value m.
Proof.
  apply map_eq. intros k.
  rewrite cleanup_fold_lookup, existsb_nil_entry, map_lookup_filter.
  destruct (m !! k) as [v|] eqn:Hk; simpl; [| done].
  unfold has_value. simpl.
  destruct (is_nil v); reflexivity.
Qed.

Lemma filter_has_value_idem (m : gmap string iface) :
  filter has_value (filter has_value m) = filter has_value m.
Proof.
  apply map_eq. intros k. rewrite !map_lookup_filter.
  destruct (m !! k) as [v|]; simpl; [| done].
  unfold has_value; simpl. destruct (is_nil v) eqn:Hn; [reflexivity |].
  rewrite option_guard_True by reflexivity. simpl.
  rewrite option_guard_True by exact Hn. reflexivity.
Qed.

Lemma cleanup_eq (p : Processor) :
  ProcessorCleanupNilProperties p =
  set_prConfig p (set_Properties (prConfig (prComponent p))
                                 (filter has_value <$> Properties (prConfig (prComponent p)))).
Proof.
  unfold ProcessorCleanupNilProperties.
  destruct p as [r [i pg n t pos st [ss sp cnt [props|] atr] rels]]; simpl.
  - by rewrite cleanup_fold_filter.
  - reflexivity.
Qed.

Lemma cleanup_no_nil (p : Processor) : no_nil_properties (ProcessorCleanupNilProperties p).
Proof.
  rewrite cleanup_eq. unfold no_nil_properties. simpl.
  destruct (Properties (prConfig (prComponent p))) as [m|]; simpl; [| done].
  intros k v Hkv. apply map_lookup_filter_Some in Hkv as [_ Hv]. exact Hv.
Qed.

(** C5: the normalization removes exactly the nil-valued properties and
    leaves the rest of the processor alone; applying it twice is applying
    it once; after CreateProcessor, UpdateProcessor and GetProcessor no
    property of the resulting processor is nil. *)
Theorem ProcessorCleanupNilProperties_spec :
  (forall p : Processor,
     ProcessorCleanupNilProperties p =
     set_prConfig p (set_Properties (prConfig (prComponent p))
                                    (filter has_value <$> Properties (prConfig (prComponent p))))) /\
  (forall p : Processor,
     ProcessorCleanupNilProperties (ProcessorCleanupNilProperties p) =
     ProcessorCleanupNilProperties p) /\
  (forall (c : Client) (p : Processor) (id : string),
     no_nil_properties (snd (snd (CreateProcessor c p))) /\
     no_nil_properties (snd (snd (UpdateProcessor c p))) /\
     match fst (snd (GetProcessor c id)) with
     | Some p' => no_nil_properties p'
     | None => True
     end).
Proof.
  split; [exact cleanup_eq |]. split.
  - intros p. rewrite (cleanup_eq (ProcessorCleanupNilProperties p)), !cleanup_eq.
    destruct p as [r [i pg n t pos st [ss sp cnt [props|] atr] rels]]; simpl; [| reflexivity].
    by rewrite filter_has_value_idem.
  - intros c p id. split; [| split].
    + unfold CreateProcessor. destruct (JsonCall c _ _ _ _) as [? [[? ?] ?]].
      apply cleanup_no_nil.
    + unfold UpdateProcessor. destruct (JsonCall c _ _ _ _) as [? [[? ?] ?]].
      apply cleanup_no_nil.
    + unfold GetProcessor. destruct (JsonCall c _ _ _ _) as [? [[[e|] code] out]]; [exact I |].
      destruct (404 =? code); [exact I |].
      pose proof (cleanup_no_nil (out_or zero_Processor out)) as Hn.
      unfold no_nil_properties in *. exact Hn.
Qed.

(** ** Auto-terminated relationships *)

Lemma auto_terminated_fold (l : list ProcessorRelationship) (acc : list string) :
  fold_left (fun acc v => if AutoTerminate v then acc ++ [relName v] else acc) l acc =
  acc ++ map relName (List.filter AutoTerminate l).
Proof.
  revert acc. induction l as [|r l IH]; intros acc; simpl.
  - by rewrite app_nil_r.
  - destruct (AutoTerminate r); simpl; rewrite IH; [by rewrite <- app_assoc | done].
Qed.

(** C6: the processor GetProcessor returns lists as auto-terminated
    relationships exactly the names of its relationships flagged
    autoTerminate, in order; for relationships success (auto-terminated)
    and failure (not) the list is ["success"]. *)
Theorem GetProcessor_auto_terminated (c : Client) (id : string) :
  match fst (snd (GetProcessor c id)) with
  | Some p =>
      AutoTerminatedRelationships (prConfig (prComponent p)) =
      Some (map relName (List.filter AutoTerminate (slice_elems (prRelationships (prComponent p)))))
  | None => True
  end /\
  option_map (fun p => (slice_elems (prRelationships (prComponent p)),
                        AutoTerminatedRelationships (prConfig (prComponent p))))
             (fst (snd (GetProcessor (client_answering p1_response) "p1"))) =
  Some ([{| relName := "success"; AutoTerminate := true |};
         {| relName := "failure"; AutoTerminate := false |}], Some ["success"]).
Proof.
  split; [| reflexivity].
  unfold GetProcessor. destruct (JsonCall c _ _ _ _) as [? [[[e|] code] out]]; [exact I |].
  destruct (404 =? code); [exact I |]. simpl.
  unfold auto_terminated. rewrite auto_terminated_fold. reflexivity.
Qed.

(** ** Creating a process group *)

(** C8 (as the code has it): CreateProcessGroup POSTs the caller's
    structure, with the revision the caller holds, to the parent group's
    process-groups collection. A nil error means either that the server
    answered 404 and the structure is unchanged, or that it answered below
    300 and the response was decoded into the structure. *)
Theorem CreateProcessGroup_request (c : Client) (pg : ProcessGroup) :
  let url := process_group_children_url c (pgParentGroupId (pgComponent pg)) in
  NewRequestOk (cClient c) "POST" url = true ->
  fst (CreateProcessGroup c pg) =
    [{| req_method := "POST"; req_url := url;
        req_body := Some (match encode pg with Some j => [j] | None => [] end);
        req_content_type := json_content_type |}] /\
  (forall j, encode pg = Some j ->
     exists rest, j = JObj (("revision", JObj [("version", JNum (Version (pgRevision pg)))]) :: rest)) /\
  (forall resp, Do (cClient c) (json_request "POST" url (Some pg)) = Some resp ->
     fst (snd (CreateProcessGroup c pg)) = None ->
     (StatusCode resp = 404 /\ snd (snd (CreateProcessGroup c pg)) = pg) \/
     (StatusCode resp < 300 /\
      exists j, Body resp = BodyJson j /\
                decode_into j pg = (snd (snd (CreateProcessGroup c pg)), true))).
Proof.
  intros url Hok. unfold CreateProcessGroup.
  fold url. rewrite (JsonCall_sent c "POST" url _ _ Hok).
  split; [| split].
  - destruct (json_response _ _) as [[? ?] ?]. simpl.
    unfold json_request, Encoder_Encode. destruct (encode pg); reflexivity.
  - intros j Hj. unfold encode, Encode_ProcessGroup in Hj. simpl in Hj.
    destruct (encode (pgPosition (pgComponent pg))); simpl in Hj; [| discriminate].
    injection Hj as <-. eexists. reflexivity.
  - intros resp Hdo. rewrite Hdo. unfold json_response.
    destruct resp as [st b]. simpl.
    destruct (Z.eqb_spec st 404) as [->|Hne]; [left; split; reflexivity |].
    destruct (Z.leb_spec 300 st) as [Hge|Hlt]; [discriminate |].
    unfold Decoder_Decode. destruct b as [j|]; [| discriminate].
    destruct (decode_into j pg) as [pg' [|]] eqn:Hd; [| discriminate].
    intros _. right. split; [exact Hlt |]. exists j. split; [reflexivity |]. exact Hd.
Qed.

Lemma CreateProcessGroup_request_witness :
  fst (CreateProcessGroup (client_answering etl_created) (etl_group 0)) =
    [{| req_method := "POST";
        req_url := "http://localhost:8080/nifi-api/process-groups/root/process-groups";
        req_body := Some [JObj [("revision", JObj [("version", JNum 0)]);
                                ("component", JObj [("parentGroupId", JStr "root");
                                                    ("name", JStr "etl");
                                                    ("position", JObj [("x", JNum 0); ("y", JNum 0)])])]];
        req_content_type := json_content_type |}] /\
  snd (CreateProcessGroup (client_answering etl_created) (etl_group 0)) =
    (None, {| pgRevision := {| Version := 1 |};
              pgComponent := {| pgId := "a1b2"; pgParentGroupId := "root"; pgName := "etl";
                                pgPosition := zero_Position |} |}).
Proof.
  split.
  - exact (proj1 (CreateProcessGroup_request (client_answering etl_created) (etl_group 0) eq_refl)).
  - reflexivity.
Defined.

(** C8: a process group held at revision 5 is POSTed with revision 5,
    not zero. *)
Lemma CreateProcessGroup_keeps_revision :
  map req_body (fst (CreateProcessGroup (client_answering etl_created) (etl_group 5))) =
    [Some [JObj [("revision", JObj [("version", JNum 5)]);
                 ("component", JObj [("parentGroupId", JStr "root"); ("name", JStr "etl");
                                     ("position", JObj [("x", JNum 0); ("y", JNum 0)])])]]].
Proof. reflexivity. Qed.

(** ** Encoding errors *)

Lemma json_response_not_encoding_error {Out} `{Decode Out} (r : option response)
    (bodyOut : option Out) :
  fst (fst (json_response r bodyOut)) <> Some ErrUnsupportedValue.
Proof.
  unfold json_response. destruct r as [[st b]|]; simpl; [| discriminate].
  destruct (st =? 404); simpl; [discriminate |].
  destruct (300 <=? st); simpl; [discriminate |].
  destruct bodyOut as [o|]; simpl; [| discriminate].
  unfold Decoder_Decode. destruct b as [j|]; simpl; [| discriminate].
  destruct (decode_into j o) as [o' []]; simpl; discriminate.
Qed.

(** C9: when the payload cannot be encoded, [Encode] fails but JsonCall
    drops its error: the request goes out with an empty buffer as body, and
    the outcome is the classification of the response, never the encoding
    error. *)
Theorem JsonCall_encode_error_dropped {In Out} `{Encode In} `{Decode Out} (c : Client)
    (method url : string) (x : In) (bodyOut : option Out) :
  encode x = None ->
  NewRequestOk (cClient c) method url = true ->
  let request := {| req_method := method; req_url := url; req_body := Some [];
                    req_content_type := json_content_type |} in
  snd (Encoder_Encode x) = Some ErrUnsupportedValue /\
  JsonCall c method url (Some x) bodyOut =
    ([request], json_response (Do (cClient c) request) bodyOut) /\
  fst (fst (snd (JsonCall c method url (Some x) bodyOut))) <> Some ErrUnsupportedValue.
Proof.
  intros Henc Hok request.
  assert (Hreq : json_request method url (Some x) = request).
  { unfold json_request, Encoder_Encode. rewrite Henc. reflexivity. }
  split; [| split].
  - unfold Encoder_Encode. rewrite Henc. reflexivity.
  - rewrite (JsonCall_sent c method url (Some x) bodyOut Hok), Hreq. reflexivity.
  - rewrite (JsonCall_sent c method url (Some x) bodyOut Hok). simpl.
    apply json_response_not_encoding_error.
Qed.

Lemma JsonCall_encode_error_dropped_witness :
  JsonCall (client_answering p1_response) "PUT" "http://localhost:8080/nifi-api/processors/p2"
           (Some processor_nan) (Some processor_nan) =
    ([{| req_method := "PUT"; req_url := "http://localhost:8080/nifi-api/processors/p2";
         req_body := Some []; req_content_type := json_content_type |}],
     json_response (Some p1_response) (Some processor_nan)).
Proof.
  exact (proj1 (proj2 (JsonCall_encode_error_dropped (client_answering p1_response) "PUT"
                         "http://localhost:8080/nifi-api/processors/p2" processor_nan
                         (Some processor_nan) eq_refl eq_refl))).
Defined.

(* ------------------------------------------------------------------ *)
(** ** Further properties of the operations *)

(** JsonCall without a response: a refused request is not sent and
    yields its error with code 0; a transport failure yields its error with
    code 0. In both cases the output target is left as it was. *)
Theorem JsonCall_no_response {In Out} `{Encode In} `{Decode Out} (c : Client)
    (method url : string) (bodyIn : option In) (bodyOut : option Out) :
  (NewRequestOk (cClient c) method url = false ->
   JsonCall c method url bodyIn bodyOut = ([], (Some ErrNewRequest, 0, bodyOut))) /\
  (NewRequestOk (cClient c) method url = true ->
   Do (cClient c) (json_request method url bodyIn) = None ->
   JsonCall c method url bodyIn bodyOut =
     ([json_request method url bodyIn], (Some ErrTransport, 0, bodyOut))).
Proof.
  split.
  - intros Hko. unfold JsonCall. rewrite Hko. reflexivity.
  - intros Hok Hdo. rewrite (JsonCall_sent c method url bodyIn bodyOut Hok), Hdo. reflexivity.
Qed.

Lemma json_request_payload {In} `{Encode In} (method url : string) (x : In) :
  json_request method url (Some x) = payload_request method url x.
Proof. unfold json_request, payload_request, Encoder_Encode. by destruct (encode x). Qed.

Lemma sent_if_payload {In} `{Encode In} (c : Client) method url (x : In) :
  sent_if c (payload_request method url x) =
  if NewRequestOk (cClient c) method url then [payload_request method url x] else [].
Proof. reflexivity. Qed.

Lemma sent_if_bodiless (c : Client) method url :
  sent_if c (bodiless_request method url) =
  if NewRequestOk (cClient c) method url then [bodiless_request method url] else [].
Proof. reflexivity. Qed.

Ltac sent_tac :=
  rewrite ?sent_if_payload, ?sent_if_bodiless;
  unfold JsonCall, process_group_url, processor_url,
    connection_url, process_group_children_url, group_processors_url, group_connections_url;
  match goal with
  | |- context [NewRequestOk ?n ?m ?u] => destruct (NewRequestOk n m u)
  end; cbn [negb]; [| reflexivity];
  try rewrite json_request_payload;
  try (unfold bodiless_request);
  match goal with
  | |- context [json_response ?r ?b] => destruct (json_response r b) as [[? ?] ?]
  end; reflexivity.

(** Every Get and Delete sends one request of its method to the resource's
    URL, with no body and no Content-Type header (nothing when
    http.NewRequest refuses it). *)
Theorem Get_Delete_requests (c : Client) (id : string) :
  fst (GetProcessGroup c id) = sent_if c (bodiless_request "GET" (process_group_url c id)) /\
  fst (GetProcessor c id) = sent_if c (bodiless_request "GET" (processor_url c id)) /\
  fst (GetConnection c id) = sent_if c (bodiless_request "GET" (connection_url c id)) /\
  fst (DeleteProcessGroup c id) = sent_if c (bodiless_request "DELETE" (process_group_url c id)) /\
  fst (DeleteProcessor c id) = sent_if c (bodiless_request "DELETE" (processor_url c id)) /\
  fst (DeleteConnection c id) = sent_if c (bodiless_request "DELETE" (connection_url c id)).
Proof.
  repeat split.
  - unfold GetProcessGroup. sent_tac.
  - unfold GetProcessor. sent_tac.
  - unfold GetConnection. sent_tac.
  - unfold DeleteProcessGroup. sent_tac.
  - unfold DeleteProcessor. sent_tac.
  - unfold DeleteConnection. sent_tac.
Qed.

(** Every Create POSTs the caller's structure to its parent group's
    collection and every Update PUTs it to the resource's own URL (the id
    from the structure), with the JSON Content-Type. *)
Theorem Create_Update_requests (c : Client) (g : ProcessGroup) (p : Processor) (cn : Connection) :
  fst (CreateProcessGroup c g) =
    sent_if c (payload_request "POST" (process_group_children_url c (pgParentGroupId (pgComponent g))) g) /\
  fst (UpdateProcessGroup c g) =
    sent_if c (payload_request "PUT" (process_group_url c (pgId (pgComponent g))) g) /\
  fst (CreateProcessor c p) =
    sent_if c (payload_request "POST" (group_processors_url c (prParentGroupId (prComponent p))) p) /\
  fst (UpdateProcessor c p) =
    sent_if c (payload_request "PUT" (processor_url c (prId (prComponent p))) p) /\
  fst (CreateConnection c cn) =
    sent_if c (payload_request "POST" (group_connections_url c (cnParentGroupId (cnComponent cn))) cn) /\
  fst (UpdateConnection c cn) =
    sent_if c (payload_request "PUT" (connection_url c (cnId (cnComponent cn))) cn).
Proof.
  repeat split.
  - unfold CreateProcessGroup. sent_tac.
  - unfold UpdateProcessGroup. sent_tac.
  - unfold CreateProcessor. sent_tac.
  - unfold UpdateProcessor. sent_tac.
  - unfold CreateConnection. sent_tac.
  - unfold UpdateConnection. sent_tac.
Qed.









(** SetProcessorState never advances the revision held in memory: after a
    successful StartProcessor, StopProcessor submits exactly the request
    it would have submitted for the original processor (same revision),
    and two successful transitions leave the processor as it was but for
    its state. *)
Theorem Start_then_Stop (c : Client) (p : Processor) :
  let p1 := snd (snd (StartProcessor c p)) in
  fst (snd (StartProcessor c p)) = None ->
  fst (snd (StopProcessor c p1)) = None ->
  p1 = set_prState p "RUNNING" /\
  fst (StopProcessor c p1) = fst (StopProcessor c p) /\
  snd (snd (StopProcessor c p1)) = set_prState p "STOPPED".
Proof.
  intros p1 Hstart Hstop. subst p1.
  assert (Hp1 : snd (snd (StartProcessor c p)) = set_prState p "RUNNING").
  { revert Hstart. unfold StartProcessor, SetProcessorState.
    destruct (JsonCall c _ _ _ _) as [? [[[e|] ?] ?]]; simpl; [discriminate | reflexivity]. }
  rewrite Hp1 in Hstop |- *. split; [reflexivity |].
  split.
  - unfold StopProcessor, SetProcessorState.
    change (state_update (set_prState p "RUNNING") "STOPPED") with (state_update p "STOPPED").
    change (prId (prComponent (set_prState p "RUNNING"))) with (prId (prComponent p)).
    destruct (JsonCall c _ _ _ _) as [? [[? ?] ?]]. reflexivity.
  - revert Hstop. unfold StopProcessor, SetProcessorState.
    destruct (JsonCall c _ _ _ _) as [? [[[e|] ?] ?]]; simpl; [discriminate |].
    intros _. reflexivity.
Qed.

Lemma Start_then_Stop_witness :
  let c := client_with_response client_404 {| StatusCode := 200; Body := BodyMalformed |} in
  snd (snd (StopProcessor c (snd (snd (StartProcessor c processor_p1_rev3))))) =
    set_prState processor_p1_rev3 "STOPPED".
Proof.
  exact (proj2 (proj2 (Start_then_Stop
                         (client_with_response client_404 {| StatusCode := 200; Body := BodyMalformed |})
                         processor_p1_rev3 eq_refl eq_refl))).
Defined.

(** ** Encoding then decoding *)

Lemma roundtrip_Position (p : Position) (j : json) (q : Position) :
  encode p = Some j -> decode_into j q = (p, true).
Proof.
  destruct p as [[x| |] [y| |]]; unfold encode, Encode_Position; simpl; try discriminate.
  intros [= <-]. reflexivity.
Qed.

Lemma roundtrip_elems {A} `{Encode A} `{Decode A} (zero : A) (l : list A) (js : list json)
    (old : list A) :
  (forall a j q, a ∈ l -> encode a = Some j -> decode_into j q = (a, true)) ->
  mapM encode l = Some js -> decode_elems zero js old = (l, true).
Proof.
  intros Hrt Hm. apply mapM_Some in Hm.
  revert old. induction Hm as [|a j l js Ha Hl IH]; intros old; [reflexivity |].
  simpl. destruct old as [|o old].
  - rewrite (Hrt a j zero ltac:(set_solver) Ha).
    rewrite IH by (intros; apply Hrt; [set_solver | done]). reflexivity.
  - rewrite (Hrt a j o ltac:(set_solver) Ha).
    rewrite IH by (intros; apply Hrt; [set_solver | done]). reflexivity.
Qed.

Lemma roundtrip_slice {A} `{Encode A} `{Decode A} (zero : A) (s : slice A) (j : json)
    (q : slice A) :
  (forall a j q, a ∈ slice_elems s -> encode a = Some j -> decode_into j q = (a, true)) ->
  encode s = Some j -> decode_slice zero j q = (s, true).
Proof.
  intros Hrt. destruct s as [l|]; unfold encode, Encode_slice; simpl.
  - destruct (mapM encode l) as [js|] eqn:Hm; simpl; [| discriminate].
    intros [= <-]. simpl. rewrite (roundtrip_elems zero l js _ Hrt Hm). reflexivity.
  - intros [= <-]. reflexivity.
Qed.





Lemma fold_left_insert_union (l : list (string * iface)) (m : gmap string iface) :
  NoDup l.*1 ->
  fold_left (fun acc '(k, v) => <[k := v]> acc) l m = list_to_map l ∪ m.
Proof.
  revert m. induction l as [|[k v] l IH]; intros m Hnd; simpl.
  - by rewrite map_empty_union.
  - apply NoDup_cons in Hnd as [Hk Hnd]. rewrite IH by done.
    rewrite <- insert_union_l. symmetry. apply insert_union_r.
    by apply not_elem_of_list_to_map_1.
Qed.

Lemma roundtrip_iface (v : iface) (j : json) :
  encode v = Some j -> decode_into j INil = (decoded_iface v, true).
Proof.
  destruct v as [|j'|]; unfold encode, Encode_iface; intros H; try discriminate;
    injection H as <-; [reflexivity |].
  destruct j'; reflexivity.
Qed.

Lemma roundtrip_Properties (props : gomap iface) (j : json) :
  encode props = Some j ->
  decode_into j (None : gomap iface) = (option_map (fmap decoded_iface) props, true).
Proof.
  destruct props as [m|]; unfold encode at 1, Encode_map; [| intros [= <-]; reflexivity].
  destruct (mapM _ _) as [kvs|] eqn:Hm; simpl; [| discriminate].
  intros [= <-].
  apply mapM_Some in Hm.
  set (l := merge_sort key_le (map_to_list m)) in Hm.
  assert (Hp : l ≡ₚ map_to_list m) by apply merge_sort_Permutation.
  assert (Hdec : fold_left (fun acc '(k, v) => <[k := (decode_into v INil).1]> acc) kvs
                   (∅ : gmap string iface) =
                 fold_left (fun acc '(k, v) => <[k := v]> acc)
                   (prod_map id decoded_iface <$> l) (∅ : gmap string iface)
                 /\ forallb (fun '(_, v) => (decode_into v INil).2) kvs = true).
  { generalize (∅ : gmap string iface). clear Hp.
    induction Hm as [|[k v] [k' j] l' kvs' Hkv Hl IH]; intros m0; [done |].
    destruct (encode v) as [jv|] eqn:Ev; simpl in Hkv; [| discriminate].
    injection Hkv as <- <-. simpl.
    rewrite (roundtrip_iface v jv Ev). simpl. apply IH. }
  unfold decode_into, Decode_Properties, decode_map.
  destruct Hdec as [-> ->]. f_equal. f_equal.
  assert (Hnd : NoDup (prod_map id decoded_iface <$> l).*1).
  { assert (Hf : forall l' : list (string * iface), (prod_map id decoded_iface <$> l').*1 = l'.*1).
    { induction l' as [|[k v] l' IH]; [done |]; cbn; by rewrite IH. }
    rewrite Hf, Hp. apply NoDup_fst_map_to_list. }
  rewrite fold_left_insert_union by exact Hnd.
  rewrite (right_id_L ∅ (∪)).
  rewrite <- (list_to_map_to_list (decoded_iface <$> m)), map_to_list_fmap.
  apply list_to_map_proper; [exact Hnd |]. by rewrite Hp.
Qed.

Lemma roundtrip_ProcessorRelationship (r : ProcessorRelationship) (j : json)
    (q : ProcessorRelationship) :
  encode r = Some j -> decode_into j q = (r, true).
Proof. destruct r as [n b]. intros [= <-]. reflexivity. Qed.

Lemma roundtrip_ProcessorConfig (k : ProcessorConfig) (j : json) :
  encode k = Some j ->
  decode_into j zero_ProcessorConfig =
    (set_Properties k (option_map (fmap decoded_iface) (Properties k)), true).
Proof.
  destruct k as [ss sp cnt props atr].
  unfold encode at 1, Encode_ProcessorConfig. cbn -[encode].
  destruct (encode props) as [jp|] eqn:Hpr; [| discriminate]. cbn -[encode].
  destruct (encode atr) as [ja|] eqn:Hat; [| discriminate].
  intros [= <-].
  pose proof (roundtrip_Properties props jp Hpr) as Hp.
  assert (Ha : decode_slice "" ja None = (atr, true)).
  { apply (roundtrip_slice "" atr ja None); [| exact Hat].
    intros a j q _ Hj. unfold encode, Encode_string in Hj. injection Hj as <-. reflexivity. }
  cbv -[decode_map decode_slice] in Hp, Ha.
  cbv -[decode_map decode_slice]. rewrite Hp. cbv -[decode_map decode_slice]. rewrite Ha.
  reflexivity.
Qed.







Lemma JsonCall_no_response_witness :
  JsonCall {| cConfig := nifi_config;
              cClient := {| NewRequestOk := fun _ _ => false; Do := fun _ => None |} |}
           "DELETE" "http://localhost:8080/nifi-api/processors/p1" (@None Nil) (@None Nil) =
    ([], (Some ErrNewRequest, 0, None)) /\
  JsonCall {| cConfig := nifi_config;
              cClient := {| NewRequestOk := fun _ _ => true; Do := fun _ => None |} |}
           "DELETE" "http://localhost:8080/nifi-api/processors/p1" (@None Nil) (@None Nil) =
    ([json_request "DELETE" "http://localhost:8080/nifi-api/processors/p1" (@None Nil)],
     (Some ErrTransport, 0, None)).
Proof.
  split.
  - apply (proj1 (JsonCall_no_response
                    {| cConfig := nifi_config;
                       cClient := {| NewRequestOk := fun _ _ => false; Do := fun _ => None |} |}
                    "DELETE" "http://localhost:8080/nifi-api/processors/p1"
                    (@None Nil) (@None Nil))).
    reflexivity.
  - apply (proj2 (JsonCall_no_response
                    {| cConfig := nifi_config;
                       cClient := {| NewRequestOk := fun _ _ => true; Do := fun _ => None |} |}
                    "DELETE" "http://localhost:8080/nifi-api/processors/p1"
                    (@None Nil) (@None Nil))); reflexivity.
Defined.
